(** * Geoconnex MCP server: a shallow embedding of [main.py]

    The server is four tool functions over one HTTP helper.  The embedding
    keeps the shape of the Python code:

    - parsed JSON is the type [value] of Python objects that [json.loads]
      can produce (dict, list, str, int, float, bool, None);
    - Python exceptions are the type [exn]; a computation that may raise
      lives in [outcome];
    - the outbound HTTP calls go through a [Network] (what the remote end
      answers to a request) and every request issued is logged, so the
      tools live in the monad [IO]. *)

From Stdlib Require Import ZArith List String Ascii Bool Lia.
From Stdlib Require Import Floats.SpecFloat.
Import ListNotations.
Open Scope string_scope.
Open Scope Z_scope.

(** ** Python values and exceptions *)

#[local] Set Warnings "-register-all".

Module Py.

(** A Python [str] is held as the string of its UTF-8 bytes; a [dict] as
    its items in insertion order (keys are unique in a real dict; lookup
    takes the first match). *)
Inductive value : Type :=
| PyNone
| PyBool (b : bool)
| PyInt (z : Z)
| PyFloat (f : spec_float)
| PyStr (s : string)
| PyList (l : list value)
| PyDict (d : list (string * value)).

Inductive exn : Type :=
| RequestException            (* the transport itself failed *)
| HTTPError (status : Z)      (* requests.exceptions.HTTPError *)
| ValueError (msg : string)
| AssertionError
| TypeError
| KeyError (key : string).

Inductive outcome (A : Type) : Type :=
| Ok (a : A)
| Raise (e : exn).
Arguments Ok {A} a.
Arguments Raise {A} e.

Definition rbind {A B} (r : outcome A) (k : A -> outcome B) : outcome B :=
  match r with
  | Ok a => k a
  | Raise e => Raise e
  end.

(** [bool(v)]: the truth value used by [assert v]. *)
Definition truthy (v : value) : bool :=
  match v with
  | PyNone => false
  | PyBool b => b
  | PyInt z => negb (z =? 0)
  | PyFloat (S754_zero _) => false
  | PyFloat _ => true
  | PyStr s => negb (s =? "")%string
  | PyList l => match l with [] => false | _ => true end
  | PyDict d => match d with [] => false | _ => true end
  end.

(** [d[key]] on the items of a dict. *)
Fixpoint lookup (key : string) (d : list (string * value)) : option value :=
  match d with
  | [] => None
  | (k, v) :: d' => if (k =? key)%string then Some v else lookup key d'
  end.

(** [needle in hay] for two strs: substring search. *)
Fixpoint str_contains (needle hay : string) : bool :=
  String.prefix needle hay
  || match hay with
     | EmptyString => false
     | String _ hay' => str_contains needle hay'
     end.

(** [x == s] for a str [s]: only an equal str compares equal. *)
Definition eq_str (s : string) (x : value) : bool :=
  match x with
  | PyStr t => (t =? s)%string
  | _ => false
  end.

(** [key in container] for a str [key]: key membership on a dict, element
    membership on a list, substring on a str; the other JSON values are
    not iterable and the operator raises TypeError. *)
Definition contains (key : string) (container : value) : outcome bool :=
  match container with
  | PyDict d => Ok (match lookup key d with Some _ => true | None => false end)
  | PyList l => Ok (existsb (eq_str key) l)
  | PyStr s => Ok (str_contains key s)
  | PyNone | PyBool _ | PyInt _ | PyFloat _ => Raise TypeError
  end.

(** [container[key]] for a str [key]: KeyError on a dict without the key,
    TypeError on everything that is not a dict (list and str indices must
    be integers, the rest is not subscriptable). *)
Definition getitem (container : value) (key : string) : outcome value :=
  match container with
  | PyDict d =>
      match lookup key d with
      | Some v => Ok v
      | None => Raise (KeyError key)
      end
  | _ => Raise TypeError
  end.

(** [iter(v)]: the elements a [for] loop visits, in order. *)
Definition iterate (v : value) : outcome (list value) :=
  match v with
  | PyList l => Ok l
  | PyDict d => Ok (map (fun kv => PyStr (fst kv)) d)
  | PyStr s => Ok (map (fun c => PyStr (String c "")) (list_ascii_of_string s))
  | PyNone | PyBool _ | PyInt _ | PyFloat _ => Raise TypeError
  end.

(** [assert b]. *)
Definition assert (b : bool) : outcome unit :=
  if b then Ok tt else Raise AssertionError.

End Py.
Import Py.

(** ** The HTTP client (the [requests] library) *)

Inductive Method : Type := GET | POST.

Record Request : Type := mkRequest {
  req_method : Method;
  req_url : string;
  req_headers : list (string * string);
  req_data : option (list Byte.byte)
}.

(** A response as the code observes it: [status_code], [text], and the
    outcome of [json()] ([None] when the body does not decode). *)
Record Response : Type := mkResponse {
  status_code : Z;
  text : string;
  json : option value
}.

(** What the remote end answers; [None] when no response arrives at all. *)
Definition Network : Type := Request -> option Response.

(** Computations that issue requests: they read the network and log the
    requests they send. *)
Definition IO (A : Type) : Type := Network -> list Request * outcome A.

Definition ret {A} (a : A) : IO A := fun _ => ([], Ok a).

Definition raise {A} (e : exn) : IO A := fun _ => ([], Raise e).

Definition bind {A B} (c : IO A) (k : A -> IO B) : IO B :=
  fun net =>
    match c net with
    | (log, Ok a) => let (log', r) := k a net in ((log ++ log')%list, r)
    | (log, Raise e) => (log, Raise e)
    end.

Definition lift {A} (r : outcome A) : IO A := fun _ => ([], r).

Declare Scope io_scope.
Delimit Scope io_scope with io.
Notation "x <- c ;; k" := (bind c (fun x => k))
  (at level 61, c at next level, right associativity) : io_scope.
Notation "c ;; k" := (bind c (fun _ => k))
  (at level 61, right associativity) : io_scope.
Notation "x <~ r ;; k" := (rbind r (fun x => k))
  (at level 61, r at next level, right associativity) : io_scope.
Open Scope io_scope.

Definition send (r : Request) : IO Response :=
  fun net =>
    ([r], match net r with
          | Some resp => Ok resp
          | None => Raise RequestException
          end).

(** [requests.post(url, data=..., headers=...)]. *)
Definition requests_post (url : string) (data : list Byte.byte)
    (headers : list (string * string)) : IO Response :=
  send (mkRequest POST url headers (Some data)).

(** [requests.get(url)]. *)
Definition requests_get (url : string) : IO Response :=
  send (mkRequest GET url [] None).

(** [Response.raise_for_status()]: the library raises HTTPError for the
    client-error and server-error classes, 400 <= status_code < 600, and
    returns normally for every other code. *)
Definition is_error_status (s : Z) : bool := (400 <=? s) && (s <? 600).

Definition raise_for_status (resp : Response) : IO unit :=
  if is_error_status (status_code resp)
  then raise (HTTPError (status_code resp))
  else ret tt.

(** [s.encode("utf-8")]: a str is held as its UTF-8 bytes already. *)
Definition encode_utf8 (s : string) : list Byte.byte := list_byte_of_string s.

(** ** main.py *)

Definition GEOCONNEX_GRAPH : string := "https://graph.geoconnex.us/".

Definition headers : list (string * string) :=
  [ ("Accept", "application/sparql-results+json");
    ("Content-Type", "application/sparql-query") ].

Definition query_geoconnex (query_text : string) : IO value :=
  response <- requests_post GEOCONNEX_GRAPH (encode_utf8 query_text) headers ;;
  raise_for_status response ;;
  match json response with
  | Some v => ret v
  | None =>
      raise (ValueError
               ("Invalid JSON response from Geoconnex: " ++ text response))
  end.

Definition geoconnex_shacl_shape : IO string :=
  let url :=
    "https://raw.githubusercontent.com/internetofwater/nabu/refs/heads/main/shacl_validator/shapes/geoconnex.ttl" in
  response <- requests_get url ;;
  raise_for_status response ;;
  ret (text response).

(** The signature announces [-> str]; the body hands back whatever
    [query_geoconnex] returns. *)
Definition explore_geoconnex_db (sparql_query : string) : IO value :=
  query_geoconnex sparql_query.

Definition dq : string := String "034"%char "".
Definition nl : string := String "010"%char "".

(** The f-string of [get_geoconnex_pid_from_river_name], line by line
    ([{{] and [}}] of the source are the braces of the query). *)
Definition river_name_query (river_name : string) : string :=
  String.concat nl
   [ "";
     "    PREFIX hyf: <https://www.opengis.net/def/schema/hy_features/hyf/>";
     "    PREFIX gsp: <http://www.opengis.net/ont/geosparql#>";
     "    PREFIX schema: <https://schema.org/>";
     "";
     "    SELECT DISTINCT ?mainstem ?name ?wkt";
     "    WHERE {";
     "    BIND(" ++ dq ++ river_name ++ dq ++ " AS ?searchString)";
     "    ";
     "    # flowpath allows us to filter by mainstems";
     "    ?mainstem a hyf:HY_FlowPath ;";
     "                schema:name ?name ;";
     "                gsp:hasGeometry/gsp:asWKT ?wkt .";
     "";
     "    # Case-insensitive substring match";
     "    FILTER(CONTAINS(LCASE(STR(?name)), LCASE(STR(?searchString))))";
     "    }";
     "    ORDER BY ?name";
     "    " ].

(** The part of [get_geoconnex_pid_from_river_name] after the query: the
    two assertions, then the loop whose body returns on its first
    iteration, then the fall-through return. *)
Definition pid_of_result (result : value) : outcome value :=
  _ <~ assert (truthy result) ;;
  has_results <~ contains "results" result ;;
  _ <~ assert has_results ;;
  results <~ getitem result "results" ;;
  bindings <~ getitem results "bindings" ;;
  items <~ iterate bindings ;;
  match items with
  | res :: _ =>
      mainstem <~ getitem res "mainstem" ;;
      getitem mainstem "value"
  | [] => Ok (PyStr "No PID found")
  end.

Definition get_geoconnex_pid_from_river_name (river_name : string)
    : IO value :=
  result <- query_geoconnex (river_name_query river_name) ;;
  lift (pid_of_result result).

(** The f-string of [get_datasets_for_geoconnex_pid]. *)
Definition datasets_query (pid : string) : string :=
  String.concat nl
   [ "";
     "    PREFIX schema: <https://schema.org/>";
     "    PREFIX gsp: <http://www.opengis.net/ont/geosparql#>";
     "    PREFIX hyf: <https://www.opengis.net/def/schema/hy_features/hyf/>";
     "    ";
     "    SELECT DISTINCT ?monitoringLocation ?siteName ?datasetDescription ?type ?url";
     "                    ?variableMeasured ?variableUnit ?measurementTechnique ?temporalCoverage";
     "                    ?distributionName ?distributionURL ?distributionFormat ?wkt";
     "    WHERE {";
     "        VALUES ?mainstem { <" ++ pid ++ "> }";
     "        ";
     "        ?monitoringLocation hyf:referencedPosition/hyf:HY_IndirectPosition/hyf:linearElement ?mainstem ;";
     "                            schema:subjectOf ?item ;";
     "                            hyf:HydroLocationType ?type ;";
     "                            gsp:hasGeometry/gsp:asWKT ?wkt .";
     "";
     "        ?item schema:name ?siteName ;";
     "              schema:temporalCoverage ?temporalCoverage ;";
     "              schema:url ?url ;";
     "              schema:variableMeasured ?variableMeasured .";
     "";
     "        ?variableMeasured schema:description ?datasetDescription ;";
     "                          schema:name ?variableMeasuredName ;";
     "                          schema:unitText ?variableUnit ;";
     "                          schema:measurementTechnique ?measurementTechnique .";
     "";
     "        OPTIONAL {";
     "            ?item schema:distribution ?distribution .";
     "            ?distribution schema:name ?distributionName ;";
     "                          schema:contentUrl ?distributionURL ;";
     "                          schema:encodingFormat ?distributionFormat .";
     "        }";
     "";
     "        # Filter datasets by the desired variable description";
     "        FILTER(REGEX(?datasetDescription, " ++ dq ++ "temperature" ++ dq ++ ", " ++ dq ++ "i" ++ dq ++ "))";
     "    }";
     "    ORDER BY ?siteName";
     "    LIMIT 5";
     "    " ].

(** The part of [get_datasets_for_geoconnex_pid] after the query. *)
Definition datasets_of_result (result : value) : outcome value :=
  _ <~ assert (truthy result) ;;
  has_results <~ contains "results" result ;;
  _ <~ assert has_results ;;
  results <~ getitem result "results" ;;
  getitem results "bindings".

Definition get_datasets_for_geoconnex_pid (pid : string) : IO value :=
  let query := datasets_query pid in
  result <- query_geoconnex query ;;
  lift (datasets_of_result result).

(** ** Definitions used by the statements *)

(** The one request [query_geoconnex] issues. *)
Definition post_request (query_text : string) : Request :=
  mkRequest POST GEOCONNEX_GRAPH headers (Some (encode_utf8 query_text)).

(** What [query_geoconnex] makes of the response it gets. *)
Definition decode (resp : Response) : outcome value :=
  if is_error_status (status_code resp)
  then Raise (HTTPError (status_code resp))
  else match json resp with
       | Some v => Ok v
       | None =>
           Raise (ValueError
                    ("Invalid JSON response from Geoconnex: " ++ text resp))
       end.

Definition shacl_request : Request :=
  mkRequest GET
    "https://raw.githubusercontent.com/internetofwater/nabu/refs/heads/main/shacl_validator/shapes/geoconnex.ttl"
    [] None.

(** The fixed text around the hole of a one-parameter template is read
    off the template itself: what two instances share in front, and what
    follows the argument. *)
Fixpoint common_prefix (a b : string) : string :=
  match a, b with
  | String c a', String d b' =>
      if Ascii.eqb c d then String c (common_prefix a' b') else ""
  | _, _ => ""
  end.

Fixpoint drop (n : nat) (s : string) : string :=
  match n, s with
  | S n', String _ s' => drop n' s'
  | _, _ => s
  end.

Definition template_head (template : string -> string) : string :=
  common_prefix (template "0") (template "1").

Definition template_tail (template : string -> string) : string :=
  drop (S (String.length (template_head template))) (template "0").

Definition river_name_query_head : string := template_head river_name_query.
Definition river_name_query_tail : string := template_tail river_name_query.
Definition datasets_query_head : string := template_head datasets_query.
Definition datasets_query_tail : string := template_tail datasets_query.

(** The clauses the claims name, as they stand in the templates. *)
Definition temperature_filter : string :=
  "FILTER(REGEX(?datasetDescription, " ++ dq ++ "temperature" ++ dq
  ++ ", " ++ dq ++ "i" ++ dq ++ "))".

Definition lowercase_filter : string :=
  "FILTER(CONTAINS(LCASE(STR(?name)), LCASE(STR(?searchString))))".

Definition bind_search_string (river_name : string) : string :=
  "BIND(" ++ dq ++ river_name ++ dq ++ " AS ?searchString)".

(** The endpoint answers the query [q] with a status that
    [raise_for_status] lets through and a body that parses to [result]:
    the case in which [query_geoconnex q] returns [result]. *)
Definition served (net : Network) (q : string) (result : value) : Prop :=
  exists resp,
    net (post_request q) = Some resp /\
    ~ 400 <= status_code resp < 600 /\
    json resp = Some result.

(** The answer of the spec's example: three bindings, the first one wins. *)
Definition snake_result : value :=
  PyDict [("results", PyDict [("bindings", PyList
    [ PyDict [("mainstem",
               PyDict [("value", PyStr "https://geoconnex.us/ref/mainstems/123")])];
      PyDict [("mainstem",
               PyDict [("value", PyStr "https://geoconnex.us/ref/mainstems/456")])];
      PyDict [("name", PyDict [("value", PyStr "Snake Creek")])] ])])].

Definition always (status : Z) (body : string) (parsed : option value)
    : Network :=
  fun _ => Some (mkResponse status body parsed).

(** Seven binding objects: more rows than the LIMIT of the query text. *)
Definition seven_rows : list value :=
  map (fun n => PyDict [("siteName", PyDict [("value", PyInt n)])])
    [1; 2; 3; 4; 5; 6; 7].

Definition seven_rows_result : value :=
  PyDict [("results", PyDict [("bindings", PyList seven_rows)])].

(** What [assert result] and [assert "results" in result] do to the
    outcome [out] of a tool that received [result]. *)
Definition guarded_by_asserts {A} (result : value) (out : outcome A) : Prop :=
  (truthy result = false -> out = Raise AssertionError) /\
  (forall d, result = PyDict d -> lookup "results" d = None ->
   out = Raise AssertionError) /\
  (truthy result = true -> contains "results" result = Ok false ->
   out = Raise AssertionError) /\
  (truthy result = true -> contains "results" result = Raise TypeError ->
   out = Raise TypeError) /\
  (truthy result = true -> contains "results" result = Ok true ->
   out <> Raise AssertionError).

Definition no_mainstem_result : value :=
  PyDict [("results", PyDict [("bindings", PyList
    [ PyDict [("name", PyDict [("value", PyStr "Snake River")])] ])])].


(** ** Substring search *)

Lemma prefix_app (p t : string) : String.prefix p (p ++ t) = true.
Proof.
  induction p as [|c p IH]; simpl.
  - destruct t; reflexivity.
  - destruct (ascii_dec c c) as [_|ne]; [exact IH | now elim ne].
Qed.

Lemma prefix_inv (p s : string) :
  String.prefix p s = true -> exists t, s = p ++ t.
Proof.
  revert s; induction p as [|c p IH]; intros s H.
  - now exists s.
  - destruct s as [|d s]; simpl in H; [discriminate|].
    destruct (ascii_dec c d) as [->|]; [|discriminate].
    destruct (IH _ H) as [t ->]. now exists t.
Qed.

Lemma append_assoc (a b c : string) : (a ++ b) ++ c = a ++ b ++ c.
Proof. induction a as [|x a IH]; simpl; [reflexivity | now rewrite IH]. Qed.

Lemma str_contains_here (needle hay : string) :
  String.prefix needle hay = true -> str_contains needle hay = true.
Proof. intros H. destruct hay; simpl in *; now rewrite H. Qed.

Lemma str_contains_skip (needle a hay : string) :
  str_contains needle hay = true -> str_contains needle (a ++ hay) = true.
Proof.
  intros H. induction a as [|c a IH]; simpl; [exact H|].
  rewrite IH. apply orb_true_r.
Qed.

(** Completeness of the search: an occurrence anywhere is found. *)
Lemma str_contains_intro (needle a b : string) :
  str_contains needle (a ++ needle ++ b) = true.
Proof. apply str_contains_skip, str_contains_here, prefix_app. Qed.

Lemma str_contains_front (needle hay b : string) :
  str_contains needle hay = true -> str_contains needle (hay ++ b) = true.
Proof.
  induction hay as [|c hay IH]; cbn [str_contains]; intros H.
  - rewrite orb_false_r in H. destruct needle; [|discriminate].
    destruct b; reflexivity.
  - apply orb_true_iff in H as [H|H].
    + destruct (prefix_inv _ _ H) as [t E]. rewrite E, append_assoc.
      apply str_contains_here, prefix_app.
    + change (String c hay ++ b) with (String c (hay ++ b)).
      cbn [str_contains]. rewrite (IH H). apply orb_true_r.
Qed.

Lemma str_contains_bracketed (a l m r b : string) :
  str_contains (l ++ m ++ r) ((a ++ l) ++ m ++ (r ++ b)) = true.
Proof.
  replace ((a ++ l) ++ m ++ r ++ b) with (a ++ (l ++ m ++ r) ++ b)
    by (now rewrite !append_assoc).
  apply str_contains_intro.
Qed.

(** Soundness of the search: a hit is an occurrence. *)
Lemma str_contains_elim (needle hay : string) :
  str_contains needle hay = true ->
  exists a b, hay = a ++ needle ++ b.
Proof.
  induction hay as [|c hay IH]; cbn [str_contains]; intros H.
  - rewrite orb_false_r in H.
    destruct (prefix_inv _ _ H) as [t E]. now exists "", t.
  - apply orb_true_iff in H as [H|H].
    + destruct (prefix_inv _ _ H) as [t ->]. now exists "", t.
    + destruct (IH H) as (a & b & ->). now exists (String c a), b.
Qed.

Lemma str_contains_tail (needle a : string) :
  str_contains needle (a ++ needle) = true.
Proof.
  apply str_contains_skip, str_contains_here.
  induction needle as [|c n IH]; simpl; [reflexivity|].
  destruct (ascii_dec c c) as [_|ne]; [exact IH | now elim ne].
Qed.

Lemma encode_utf8_app (a b : string) :
  encode_utf8 (a ++ b) = (encode_utf8 a ++ encode_utf8 b)%list.
Proof.
  unfold encode_utf8, list_byte_of_string.
  induction a as [|c a IH]; simpl; [reflexivity | now rewrite IH].
Qed.


(** ** Running the query executor *)

Lemma query_geoconnex_run (query_text : string) (net : Network) :
  query_geoconnex query_text net =
  ([post_request query_text],
   match net (post_request query_text) with
   | Some resp => decode resp
   | None => Raise RequestException
   end).
Proof.
  unfold query_geoconnex, bind, requests_post, send, raise_for_status, decode.
  fold (post_request query_text).
  destruct (net (post_request query_text)) as [resp|]; [|reflexivity].
  destruct (is_error_status (status_code resp)); [reflexivity|].
  destruct (json resp); reflexivity.
Qed.

Lemma bind_lift_run {A B} (c : IO A) (f : A -> outcome B) (net : Network) :
  (x <- c ;; lift (f x)) net = (fst (c net), rbind (snd (c net)) f).
Proof.
  unfold bind, lift. destruct (c net) as [log [a|e]]; simpl; [|reflexivity].
  now rewrite app_nil_r.
Qed.

Lemma is_error_status_spec (s : Z) :
  is_error_status s = true <-> 400 <= s < 600.
Proof. unfold is_error_status. rewrite andb_true_iff. lia. Qed.

Lemma decode_error (resp : Response) :
  400 <= status_code resp < 600 ->
  decode resp = Raise (HTTPError (status_code resp)).
Proof.
  intros H. unfold decode.
  now rewrite (proj2 (is_error_status_spec _) H).
Qed.

Lemma decode_pass (resp : Response) :
  ~ 400 <= status_code resp < 600 ->
  decode resp =
  match json resp with
  | Some v => Ok v
  | None =>
      Raise (ValueError ("Invalid JSON response from Geoconnex: " ++ text resp))
  end.
Proof.
  intros H. unfold decode.
  destruct (is_error_status (status_code resp)) eqn:E; [|reflexivity].
  now apply is_error_status_spec in E.
Qed.

(** ** The query executor (C2) *)

(** C2, as amended.  [query_geoconnex] sends exactly one POST and then:
    on a 4xx or 5xx status (the codes for which [raise_for_status]
    raises) it fails with HTTPError whatever the body is; on every other
    status, the 2xx ones included, a body that is not valid JSON gives a
    ValueError whose message contains the raw body text, and a body that
    is valid JSON gives the parsed value unchanged. *)
Theorem C2_query_geoconnex_outcomes
    (query_text : string) (net : Network) (resp : Response)
    (Hresp : net (post_request query_text) = Some resp) :
  fst (query_geoconnex query_text net) = [post_request query_text] /\
  (400 <= status_code resp < 600 ->
   snd (query_geoconnex query_text net) = Raise (HTTPError (status_code resp))) /\
  (~ 400 <= status_code resp < 600 -> json resp = None ->
   exists msg,
     snd (query_geoconnex query_text net) = Raise (ValueError msg) /\
     str_contains (text resp) msg = true) /\
  (forall v, ~ 400 <= status_code resp < 600 -> json resp = Some v ->
   snd (query_geoconnex query_text net) = Ok v).
Proof.
  rewrite query_geoconnex_run, Hresp; simpl.
  repeat split.
  - apply decode_error.
  - intros Hs Hj. rewrite (decode_pass _ Hs), Hj.
    eexists; split; [reflexivity | apply str_contains_tail].
  - intros v Hs Hj. now rewrite (decode_pass _ Hs), Hj.
Qed.

(** A 200 answer whose body is an HTML page: the ValueError carries it. *)
Lemma C2_witness_html_body :
  exists msg,
    snd (query_geoconnex "ASK {}"
           (fun _ => Some (mkResponse 200 "<html>error</html>" None)))
    = Raise (ValueError msg) /\
    str_contains "<html>error</html>" msg = true.
Proof.
  refine (proj1 (proj2 (proj2
            (C2_query_geoconnex_outcomes "ASK {}"
               (fun _ => Some (mkResponse 200 "<html>error</html>" None))
               (mkResponse 200 "<html>error</html>" None) eq_refl))) _ eq_refl).
  simpl; lia.
Defined.

(** C2 as stated fails at status 300: the code is not 2xx, yet no
    HTTPError is raised and the body is parsed and returned. *)
Lemma C2_counterexample_status_300 :
  let resp := mkResponse 300 "{}" (Some (PyDict [])) in
  ~ 200 <= status_code resp < 300 /\
  snd (query_geoconnex "ASK {}" (fun _ => Some resp)) = Ok (PyDict []).
Proof. split; [simpl; lia | reflexivity]. Qed.

(** ** The exploration tool (C3) *)

Lemma explore_geoconnex_db_run (sparql_query : string) (net : Network) :
  explore_geoconnex_db sparql_query net = query_geoconnex sparql_query net.
Proof. reflexivity. Qed.

(** C3, at the failing input: the endpoint answers 200 with the JSON body
    [{}]; the tool returns the parsed (empty) dict, which is not the str
    holding the body text. *)
Theorem C3_explore_returns_parsed_not_text :
  let resp := mkResponse 200 "{}" (Some (PyDict [])) in
  let returned := snd (explore_geoconnex_db "ASK {}" (fun _ => Some resp)) in
  returned = Ok (PyDict []) /\ returned <> Ok (PyStr (text resp)).
Proof. split; [reflexivity | discriminate]. Qed.

(** ** The shape fetcher (C9) *)

Lemma geoconnex_shacl_shape_run (net : Network) :
  geoconnex_shacl_shape net =
  ([shacl_request],
   match net shacl_request with
   | Some resp =>
       if is_error_status (status_code resp)
       then Raise (HTTPError (status_code resp))
       else Ok (text resp)
   | None => Raise RequestException
   end).
Proof.
  unfold geoconnex_shacl_shape, bind, requests_get, send, raise_for_status.
  fold shacl_request.
  destruct (net shacl_request) as [resp|]; [|reflexivity].
  destruct (is_error_status (status_code resp)); reflexivity.
Qed.

(** C9, as amended.  [geoconnex_shacl_shape] has no argument; whatever
    the network does it issues exactly one GET, to the fixed document
    URL; when a response arrives it fails with HTTPError on a 4xx or 5xx
    status and otherwise returns the body text as it is. *)
Theorem C9_shacl_shape_outcomes (net : Network) (resp : Response)
    (Hresp : net shacl_request = Some resp) :
  fst (geoconnex_shacl_shape net) = [shacl_request] /\
  (400 <= status_code resp < 600 ->
   snd (geoconnex_shacl_shape net) = Raise (HTTPError (status_code resp))) /\
  (~ 400 <= status_code resp < 600 ->
   snd (geoconnex_shacl_shape net) = Ok (text resp)).
Proof.
  rewrite geoconnex_shacl_shape_run, Hresp; simpl.
  repeat split.
  - intros H. now rewrite (proj2 (is_error_status_spec _) H).
  - intros H. destruct (is_error_status (status_code resp)) eqn:E;
      [now apply is_error_status_spec in E | reflexivity].
Qed.

Lemma C9_witness_not_found :
  snd (geoconnex_shacl_shape (fun _ => Some (mkResponse 404 "gone" None)))
  = Raise (HTTPError 404).
Proof.
  refine (proj1 (proj2
            (C9_shacl_shape_outcomes
               (fun _ => Some (mkResponse 404 "gone" None))
               (mkResponse 404 "gone" None) eq_refl)) _).
  simpl; lia.
Defined.

(** C9 as stated fails at status 300: not a success status, and the body
    is returned without any error. *)
Lemma C9_counterexample_status_300 :
  let resp := mkResponse 300 "choices" None in
  ~ 200 <= status_code resp < 300 /\
  snd (geoconnex_shacl_shape (fun _ => Some resp)) = Ok "choices".
Proof. split; [simpl; lia | reflexivity]. Qed.

(** ** The query templates (C4, C5, C8) *)

Lemma river_name_query_split (river_name : string) :
  river_name_query river_name =
  river_name_query_head ++ river_name ++ river_name_query_tail.
Proof.
  unfold river_name_query. cbn -[river_name_query_head river_name_query_tail].
  rewrite !append_assoc. reflexivity.
Qed.

Lemma datasets_query_split (pid : string) :
  datasets_query pid = datasets_query_head ++ pid ++ datasets_query_tail.
Proof.
  unfold datasets_query. cbn -[datasets_query_head datasets_query_tail].
  rewrite !append_assoc. reflexivity.
Qed.

Ltac in_tail :=
  rewrite ?river_name_query_split, ?datasets_query_split;
  do 2 apply str_contains_skip; vm_compute; reflexivity.

Ltac in_head :=
  rewrite ?river_name_query_split, ?datasets_query_split;
  apply str_contains_front; vm_compute; reflexivity.

(** C4.  Whatever the pid, the dataset query is the same head, the pid,
    and the same tail; the tail holds the case-insensitive regex filter on
    [?datasetDescription] with the literal [temperature], the ordering by
    [?siteName], and the literal [LIMIT 5], so the query text contains
    all three and none of them comes from the pid. *)
Theorem C4_datasets_query_fixed_clauses (pid : string) :
  datasets_query pid = datasets_query_head ++ pid ++ datasets_query_tail /\
  (str_contains temperature_filter datasets_query_tail = true /\
   str_contains "ORDER BY ?siteName" datasets_query_tail = true /\
   str_contains "LIMIT 5" datasets_query_tail = true) /\
  (str_contains temperature_filter (datasets_query pid) = true /\
   str_contains "ORDER BY ?siteName" (datasets_query pid) = true /\
   str_contains "LIMIT 5" (datasets_query pid) = true).
Proof.
  split; [apply datasets_query_split|].
  split; [repeat split; vm_compute; reflexivity|].
  repeat split; in_tail.
Qed.

(** C5.  Whatever the river name, the query text binds it as the search
    string, filters with [CONTAINS] over the lower-cased stored name and
    the lower-cased search string, restricts [?mainstem] to
    [hyf:HY_FlowPath], selects DISTINCT, and orders by [?name]; the fixed
    clauses sit in the head and tail around the name. *)
Theorem C5_river_name_query_clauses (river_name : string) :
  river_name_query river_name =
    river_name_query_head ++ river_name ++ river_name_query_tail /\
  (str_contains "SELECT DISTINCT" river_name_query_head = true /\
   str_contains "?mainstem a hyf:HY_FlowPath" river_name_query_tail = true /\
   str_contains lowercase_filter river_name_query_tail = true /\
   str_contains "ORDER BY ?name" river_name_query_tail = true) /\
  (str_contains "SELECT DISTINCT" (river_name_query river_name) = true /\
   str_contains (bind_search_string river_name)
     (river_name_query river_name) = true /\
   str_contains "?mainstem a hyf:HY_FlowPath"
     (river_name_query river_name) = true /\
   str_contains lowercase_filter (river_name_query river_name) = true /\
   str_contains "ORDER BY ?name" (river_name_query river_name) = true).
Proof.
  split; [apply river_name_query_split|].
  split; [repeat split; vm_compute; reflexivity|].
  split; [in_head|].
  split; [|repeat split; in_tail].
  rewrite river_name_query_split.
  change (bind_search_string river_name)
    with (("BIND(" ++ dq) ++ river_name ++ (dq ++ " AS ?searchString)")).
  replace river_name_query_head
    with (String.substring 0 (String.length river_name_query_head - 6)
            river_name_query_head ++ ("BIND(" ++ dq))
    by (vm_compute; reflexivity).
  replace river_name_query_tail
    with ((dq ++ " AS ?searchString)") ++ drop 19 river_name_query_tail)
    by (vm_compute; reflexivity).
  apply str_contains_bracketed.
Qed.

(** ** Running the two query tools *)

Lemma served_query (net : Network) (q : string) (result : value) :
  served net q result -> snd (query_geoconnex q net) = Ok result.
Proof.
  intros (resp & Hresp & Hs & Hj).
  now rewrite query_geoconnex_run, Hresp; simpl; rewrite decode_pass, Hj.
Qed.

Lemma get_geoconnex_pid_from_river_name_run (river_name : string)
    (net : Network) :
  get_geoconnex_pid_from_river_name river_name net =
  ([post_request (river_name_query river_name)],
   rbind (snd (query_geoconnex (river_name_query river_name) net))
     pid_of_result).
Proof.
  unfold get_geoconnex_pid_from_river_name.
  now rewrite bind_lift_run, query_geoconnex_run.
Qed.

Lemma get_datasets_for_geoconnex_pid_run (pid : string) (net : Network) :
  get_datasets_for_geoconnex_pid pid net =
  ([post_request (datasets_query pid)],
   rbind (snd (query_geoconnex (datasets_query pid) net)) datasets_of_result).
Proof.
  unfold get_datasets_for_geoconnex_pid.
  now rewrite bind_lift_run, query_geoconnex_run.
Qed.

Lemma pid_served (net : Network) (river_name : string) (result : value) :
  served net (river_name_query river_name) result ->
  snd (get_geoconnex_pid_from_river_name river_name net) = pid_of_result result.
Proof.
  intros H. rewrite get_geoconnex_pid_from_river_name_run; simpl.
  now rewrite (served_query _ _ _ H).
Qed.

Lemma datasets_served (net : Network) (pid : string) (result : value) :
  served net (datasets_query pid) result ->
  snd (get_datasets_for_geoconnex_pid pid net) = datasets_of_result result.
Proof.
  intros H. rewrite get_datasets_for_geoconnex_pid_run; simpl.
  now rewrite (served_query _ _ _ H).
Qed.

(** A value that can be indexed by a key is a non-empty dict holding it,
    so it passes [assert result] and [assert key in result]. *)
Lemma getitem_Ok_asserts (result : value) (key : string) (v : value) :
  getitem result key = Ok v ->
  truthy result = true /\ contains key result = Ok true.
Proof.
  destruct result as [| | | | | |d]; try discriminate.
  simpl. destruct d as [|kv d]; [discriminate|].
  destruct (lookup key (kv :: d)); [split; reflexivity | discriminate].
Qed.

Lemma getitem_not_assertion (c : value) (key : string) :
  getitem c key <> Raise AssertionError.
Proof.
  destruct c; simpl; try discriminate.
  destruct (lookup key d); discriminate.
Qed.

Lemma iterate_not_assertion (v : value) : iterate v <> Raise AssertionError.
Proof. destruct v; discriminate. Qed.

Lemma iterate_nil (v : value) :
  iterate v = Ok [] <-> v = PyList [] \/ v = PyDict [] \/ v = PyStr "".
Proof.
  split.
  - destruct v as [| | | |s|l|d]; try discriminate; simpl; intros H.
    + destruct s; [auto | discriminate].
    + injection H as ->. auto.
    + destruct d; [auto | discriminate].
  - intros [-> | [-> | ->]]; reflexivity.
Qed.

(** Past the two assertions, the bodies of the two tools. *)
Lemma pid_of_result_past_asserts (result : value) :
  truthy result = true -> contains "results" result = Ok true ->
  pid_of_result result =
  (results <~ getitem result "results" ;;
   bindings <~ getitem results "bindings" ;;
   items <~ iterate bindings ;;
   match items with
   | res :: _ => mainstem <~ getitem res "mainstem" ;; getitem mainstem "value"
   | [] => Ok (PyStr "No PID found")
   end).
Proof. intros Ht Hc. unfold pid_of_result. now rewrite Ht, Hc. Qed.

Lemma datasets_of_result_past_asserts (result : value) :
  truthy result = true -> contains "results" result = Ok true ->
  datasets_of_result result =
  (results <~ getitem result "results" ;; getitem results "bindings").
Proof. intros Ht Hc. unfold datasets_of_result. now rewrite Ht, Hc. Qed.

(** ** The PID extractor (C1) *)

(** C1.  The endpoint answers with a result whose ["results"]["bindings"]
    is a list.  If the list is non-empty the tool returns the ["value"]
    of the ["mainstem"] of its first element, whatever follows; if the
    list is empty the tool returns the str [No PID found], without
    raising. *)
Theorem C1_first_mainstem_or_sentinel
    (net : Network) (river_name : string) (result results : value)
    (Hserved : served net (river_name_query river_name) result)
    (Hresults : getitem result "results" = Ok results) :
  (forall res rest mainstem v,
     getitem results "bindings" = Ok (PyList (res :: rest)) ->
     getitem res "mainstem" = Ok mainstem ->
     getitem mainstem "value" = Ok v ->
     snd (get_geoconnex_pid_from_river_name river_name net) = Ok v) /\
  (getitem results "bindings" = Ok (PyList []) ->
   snd (get_geoconnex_pid_from_river_name river_name net)
   = Ok (PyStr "No PID found")).
Proof.
  rewrite (pid_served _ _ _ Hserved).
  destruct (getitem_Ok_asserts _ _ _ Hresults) as [Ht Hc].
  rewrite (pid_of_result_past_asserts _ Ht Hc), Hresults; simpl.
  split.
  - intros res rest mainstem v Hb Hm Hv. now rewrite Hb; simpl; rewrite Hm.
  - intros Hb. now rewrite Hb.
Qed.

Lemma served_always (q body : string) (result : value) :
  served (always 200 body (Some result)) q result.
Proof. eexists; repeat split; simpl; lia. Qed.

Lemma C1_witness_snake :
  snd (get_geoconnex_pid_from_river_name "Snake"
         (always 200 "..." (Some snake_result)))
  = Ok (PyStr "https://geoconnex.us/ref/mainstems/123").
Proof.
  refine (proj1 (C1_first_mainstem_or_sentinel
                   (always 200 "..." (Some snake_result)) "Snake"
                   snake_result _ (served_always _ _ _) eq_refl)
            _ _ _ _ eq_refl eq_refl eq_refl).
Defined.

(** ** The dataset list extractor (C6) *)

(** C6.  When the endpoint answers with a result whose
    ["results"]["bindings"] is a list, of any length, the tool returns
    that very list: same elements, same order, same length. *)
Theorem C6_datasets_bindings_unmodified
    (net : Network) (pid : string) (result results : value)
    (bindings : list value)
    (Hserved : served net (datasets_query pid) result)
    (Hresults : getitem result "results" = Ok results)
    (Hbindings : getitem results "bindings" = Ok (PyList bindings)) :
  snd (get_datasets_for_geoconnex_pid pid net) = Ok (PyList bindings).
Proof.
  rewrite (datasets_served _ _ _ Hserved).
  destruct (getitem_Ok_asserts _ _ _ Hresults) as [Ht Hc].
  now rewrite (datasets_of_result_past_asserts _ Ht Hc), Hresults.
Qed.

Lemma C6_witness_seven_rows :
  snd (get_datasets_for_geoconnex_pid "https://geoconnex.us/ref/mainstems/123"
         (always 200 "..." (Some seven_rows_result)))
  = Ok (PyList seven_rows).
Proof.
  exact (C6_datasets_bindings_unmodified
           (always 200 "..." (Some seven_rows_result))
           "https://geoconnex.us/ref/mainstems/123"
           seven_rows_result (PyDict [("bindings", PyList seven_rows)])
           seven_rows (served_always _ _ _) eq_refl eq_refl).
Defined.

(** ** The two assertions (C7) *)

Lemma pid_of_result_guarded (result : value) :
  guarded_by_asserts result (pid_of_result result).
Proof.
  assert (G : forall b, truthy result = b ->
              forall c, contains "results" result = c ->
              pid_of_result result =
              (_ <~ assert b ;; has <~ c ;; _ <~ assert has ;;
               results <~ getitem result "results" ;;
               bindings <~ getitem results "bindings" ;;
               items <~ iterate bindings ;;
               match items with
               | res :: _ =>
                   mainstem <~ getitem res "mainstem" ;;
                   getitem mainstem "value"
               | [] => Ok (PyStr "No PID found")
               end)) by (intros; subst; reflexivity).
  repeat split.
  - intros Ht. now rewrite (G _ Ht _ eq_refl).
  - intros d -> Hd. destruct d as [|kv d]; [reflexivity|].
    assert (Hc : contains "results" (PyDict (kv :: d)) = Ok false)
      by (unfold contains; now rewrite Hd).
    now rewrite (G true eq_refl _ Hc).
  - intros Ht Hc. now rewrite (G _ Ht _ Hc).
  - intros Ht Hc. now rewrite (G _ Ht _ Hc).
  - intros Ht Hc. rewrite (G _ Ht _ Hc). simpl.
    destruct (getitem result "results") as [results|e] eqn:E1; simpl;
      [|intros X; injection X as ->; now apply getitem_not_assertion in E1].
    destruct (getitem results "bindings") as [bindings|e] eqn:E2; simpl;
      [|intros X; injection X as ->; now apply getitem_not_assertion in E2].
    destruct (iterate bindings) as [items|e] eqn:E3; simpl;
      [|intros X; injection X as ->; now apply iterate_not_assertion in E3].
    destruct items as [|res rest]; [discriminate|].
    destruct (getitem res "mainstem") as [mainstem|e] eqn:E4; simpl;
      [|intros X; injection X as ->; now apply getitem_not_assertion in E4].
    apply getitem_not_assertion.
Qed.

Lemma datasets_of_result_guarded (result : value) :
  guarded_by_asserts result (datasets_of_result result).
Proof.
  assert (G : forall b, truthy result = b ->
              forall c, contains "results" result = c ->
              datasets_of_result result =
              (_ <~ assert b ;; has <~ c ;; _ <~ assert has ;;
               results <~ getitem result "results" ;;
               getitem results "bindings"))
    by (intros; subst; reflexivity).
  repeat split.
  - intros Ht. now rewrite (G _ Ht _ eq_refl).
  - intros d -> Hd. destruct d as [|kv d]; [reflexivity|].
    assert (Hc : contains "results" (PyDict (kv :: d)) = Ok false)
      by (unfold contains; now rewrite Hd).
    now rewrite (G true eq_refl _ Hc).
  - intros Ht Hc. now rewrite (G _ Ht _ Hc).
  - intros Ht Hc. now rewrite (G _ Ht _ Hc).
  - intros Ht Hc. rewrite (G _ Ht _ Hc). simpl.
    destruct (getitem result "results") as [results|e] eqn:E1; simpl;
      [|intros X; injection X as ->; now apply getitem_not_assertion in E1].
    apply getitem_not_assertion.
Qed.

(** C7, as amended.  In both tools, once the endpoint has answered with a
    parsed [result]: a falsy result, an object without a ["results"] key,
    and more generally a truthy result on which ["results" in result] is
    False, make the tool fail with AssertionError; a truthy result on
    which the membership test itself raises TypeError (a number, [true])
    makes the tool fail with that TypeError; and when the result is
    truthy and contains ["results"] the tool does not fail with
    AssertionError. *)
Theorem C7_assertion_guards
    (net : Network) (river_name pid : string) (result : value) :
  (served net (river_name_query river_name) result ->
   guarded_by_asserts result
     (snd (get_geoconnex_pid_from_river_name river_name net))) /\
  (served net (datasets_query pid) result ->
   guarded_by_asserts result (snd (get_datasets_for_geoconnex_pid pid net))).
Proof.
  split; intros H.
  - rewrite (pid_served _ _ _ H). apply pid_of_result_guarded.
  - rewrite (datasets_served _ _ _ H). apply datasets_of_result_guarded.
Qed.

(** An empty JSON object: both tools stop at the first assertion. *)
Lemma C7_witness_empty_object :
  snd (get_geoconnex_pid_from_river_name "Snake"
         (always 200 "{}" (Some (PyDict []))))
  = Raise AssertionError /\
  snd (get_datasets_for_geoconnex_pid "urn:x"
         (always 200 "{}" (Some (PyDict []))))
  = Raise AssertionError.
Proof.
  destruct (C7_assertion_guards (always 200 "{}" (Some (PyDict [])))
              "Snake" "urn:x" (PyDict [])) as [Hpid Hds].
  split.
  - exact (proj1 (Hpid (served_always _ _ _)) eq_refl).
  - exact (proj1 (Hds (served_always _ _ _)) eq_refl).
Defined.

(** C7 as stated fails on the JSON body [5]: the parsed result is truthy
    and, not being an object, has no ["results"] key, yet neither tool
    fails with an assertion: the membership test raises TypeError. *)
Lemma C7_counterexample_number :
  let net := always 200 "5" (Some (PyInt 5)) in
  (forall d, PyInt 5 <> PyDict d) /\
  snd (get_geoconnex_pid_from_river_name "Snake" net) = Raise TypeError /\
  snd (get_datasets_for_geoconnex_pid "urn:x" net) = Raise TypeError /\
  @Raise value TypeError <> Raise AssertionError.
Proof.
  split; [discriminate|].
  split; [reflexivity|].
  split; [reflexivity | discriminate].
Qed.

(** ** Substitution of the arguments (C8) *)

(** C8.  For every river name and every pid, and whatever the network
    answers, each tool sends exactly one POST whose body is the bytes of
    the fixed head of its template, then the bytes of the argument as
    supplied, then the bytes of the fixed tail: the argument reaches the
    endpoint untouched, and no argument is turned away. *)
Theorem C8_arguments_substituted_verbatim
    (river_name pid : string) (net : Network) :
  (river_name_query river_name =
     river_name_query_head ++ river_name ++ river_name_query_tail /\
   fst (get_geoconnex_pid_from_river_name river_name net) =
     [mkRequest POST GEOCONNEX_GRAPH headers
        (Some (encode_utf8 river_name_query_head ++ encode_utf8 river_name
               ++ encode_utf8 river_name_query_tail)%list)]) /\
  (datasets_query pid = datasets_query_head ++ pid ++ datasets_query_tail /\
   fst (get_datasets_for_geoconnex_pid pid net) =
     [mkRequest POST GEOCONNEX_GRAPH headers
        (Some (encode_utf8 datasets_query_head ++ encode_utf8 pid
               ++ encode_utf8 datasets_query_tail)%list)]).
Proof.
  split; (split; [auto using river_name_query_split, datasets_query_split|]).
  - rewrite get_geoconnex_pid_from_river_name_run. unfold post_request.
    cbn [fst]. now rewrite river_name_query_split, !encode_utf8_app.
  - rewrite get_datasets_for_geoconnex_pid_run. unfold post_request.
    cbn [fst]. now rewrite datasets_query_split, !encode_utf8_app.
Qed.

(** ** Missing keys and the sentinel (C10) *)

(** C10, as amended.  The result has passed both assertions.  If its
    ["results"] is an object without ["bindings"], or the first element
    of the bindings list is an object without ["mainstem"], or that
    ["mainstem"] is an object without ["value"], the tool raises KeyError
    for the missing key.  The tool returns the str [No PID found] only
    when ["results"]["bindings"] exists and is empty (an empty list, or
    an empty object or str, over which the loop does not run either), or
    when the first binding's mainstem value is itself that str. *)
Theorem C10_missing_keys_and_sentinel
    (net : Network) (river_name : string) (result : value)
    (Hserved : served net (river_name_query river_name) result)
    (Htruthy : truthy result = true)
    (Hcontains : contains "results" result = Ok true) :
  let out := snd (get_geoconnex_pid_from_river_name river_name net) in
  (forall d, getitem result "results" = Ok (PyDict d) ->
     lookup "bindings" d = None -> out = Raise (KeyError "bindings")) /\
  (forall results d rest,
     getitem result "results" = Ok results ->
     getitem results "bindings" = Ok (PyList (PyDict d :: rest)) ->
     lookup "mainstem" d = None -> out = Raise (KeyError "mainstem")) /\
  (forall results res rest d,
     getitem result "results" = Ok results ->
     getitem results "bindings" = Ok (PyList (res :: rest)) ->
     getitem res "mainstem" = Ok (PyDict d) ->
     lookup "value" d = None -> out = Raise (KeyError "value")) /\
  (out = Ok (PyStr "No PID found") ->
   exists results bindings,
     getitem result "results" = Ok results /\
     getitem results "bindings" = Ok bindings /\
     ((bindings = PyList [] \/ bindings = PyDict [] \/ bindings = PyStr "") \/
      exists res rest mainstem,
        iterate bindings = Ok (res :: rest) /\
        getitem res "mainstem" = Ok mainstem /\
        getitem mainstem "value" = Ok (PyStr "No PID found"))).
Proof.
  intros out; subst out.
  rewrite (pid_served _ _ _ Hserved),
    (pid_of_result_past_asserts _ Htruthy Hcontains).
  repeat split.
  - intros d Hr Hb. rewrite Hr; simpl. now rewrite Hb.
  - intros results d rest Hr Hb Hm. rewrite Hr; simpl. rewrite Hb; simpl.
    now rewrite Hm.
  - intros results res rest d Hr Hb Hm Hv. rewrite Hr; simpl.
    rewrite Hb; simpl. rewrite Hm; simpl. now rewrite Hv.
  - destruct (getitem result "results") as [results|] eqn:Hr;
      [simpl | discriminate].
    destruct (getitem results "bindings") as [bindings|] eqn:Hb;
      [simpl | discriminate].
    destruct (iterate bindings) as [[|res rest]|] eqn:Hi;
      [simpl | simpl | discriminate]; intros Hout.
    + exists results, bindings. repeat split; trivial.
      left. now apply iterate_nil.
    + destruct (getitem res "mainstem") as [mainstem|] eqn:Hm;
        [simpl in Hout | discriminate].
      exists results, bindings. repeat split; trivial.
      right. now exists res, rest, mainstem.
Qed.

Lemma C10_witness_no_mainstem :
  snd (get_geoconnex_pid_from_river_name "Snake"
         (always 200 "..." (Some no_mainstem_result)))
  = Raise (KeyError "mainstem").
Proof.
  exact (proj1 (proj2
           (C10_missing_keys_and_sentinel
              (always 200 "..." (Some no_mainstem_result)) "Snake"
              no_mainstem_result (served_always _ _ _) eq_refl eq_refl))
           (PyDict [("bindings", PyList
              [ PyDict [("name", PyDict [("value", PyStr "Snake River")])] ])])
           _ _ eq_refl eq_refl eq_refl).
Defined.

(** C10 as stated fails twice over.  With ["bindings"] an empty object
    there is no bindings list, and the sentinel is returned; with a
    one-element bindings list whose mainstem value is the sentinel text,
    the list is not empty, and the sentinel text is returned. *)
Lemma C10_counterexample_sentinel :
  let empty_object :=
    PyDict [("results", PyDict [("bindings", PyDict [])])] in
  let same_text :=
    PyDict [("results", PyDict [("bindings", PyList
      [ PyDict [("mainstem", PyDict [("value", PyStr "No PID found")])] ])])] in
  (forall l, PyDict [] <> PyList l) /\
  snd (get_geoconnex_pid_from_river_name "Snake"
         (always 200 "..." (Some empty_object)))
  = Ok (PyStr "No PID found") /\
  snd (get_geoconnex_pid_from_river_name "Snake"
         (always 200 "..." (Some same_text)))
  = Ok (PyStr "No PID found").
Proof. split; [discriminate | split; reflexivity]. Qed.

(** ** Failures of the query executor, seen from the tools *)

Lemma append_cancel_l (h a b : string) : h ++ a = h ++ b -> a = b.
Proof.
  induction h as [|c h IH]; simpl; intros H; [exact H|].
  injection H as H. now apply IH.
Qed.

Lemma length_append (a b : string) :
  String.length (a ++ b) = (String.length a + String.length b)%nat.
Proof. induction a as [|c a IH]; simpl; [reflexivity | now rewrite IH]. Qed.

Lemma append_cancel_r (t a b : string) : a ++ t = b ++ t -> a = b.
Proof.
  revert b; induction a as [|c a IH]; intros [|d b] H; simpl in H.
  - reflexivity.
  - apply (f_equal String.length) in H. simpl in H.
    rewrite length_append in H. lia.
  - apply (f_equal String.length) in H. simpl in H.
    rewrite length_append in H. lia.
  - injection H as -> H. now rewrite (IH _ H).
Qed.

Lemma getitem_not_dict (c : value) (key : string) :
  (forall d, c <> PyDict d) -> getitem c key = Raise TypeError.
Proof. intros H. destruct c; try reflexivity. now elim (H d). Qed.

(** The ways [query_geoconnex] can end. *)
Lemma query_geoconnex_cases (q : string) (net : Network) :
  snd (query_geoconnex q net) = Raise RequestException \/
  (exists s, 400 <= s < 600 /\
     snd (query_geoconnex q net) = Raise (HTTPError s)) \/
  (exists body,
     snd (query_geoconnex q net) =
     Raise (ValueError ("Invalid JSON response from Geoconnex: " ++ body))) \/
  (exists v, snd (query_geoconnex q net) = Ok v).
Proof.
  rewrite query_geoconnex_run; simpl.
  destruct (net (post_request q)) as [resp|]; [|now left].
  unfold decode.
  destruct (is_error_status (status_code resp)) eqn:E.
  - right; left. exists (status_code resp).
    split; [now apply is_error_status_spec | reflexivity].
  - destruct (json resp) as [v|].
    + right; right; right. now exists v.
    + right; right; left. now exists (text resp).
Qed.

(** X1.  The three query tools catch nothing: whenever [query_geoconnex]
    raises (no answer, a 4xx or 5xx status, a body that is not JSON),
    the tool that called it raises the same exception. *)
Theorem X1_query_failure_propagates
    (net : Network) (sparql_query river_name pid : string) (e : exn) :
  (snd (query_geoconnex sparql_query net) = Raise e ->
   snd (explore_geoconnex_db sparql_query net) = Raise e) /\
  (snd (query_geoconnex (river_name_query river_name) net) = Raise e ->
   snd (get_geoconnex_pid_from_river_name river_name net) = Raise e) /\
  (snd (query_geoconnex (datasets_query pid) net) = Raise e ->
   snd (get_datasets_for_geoconnex_pid pid net) = Raise e).
Proof.
  repeat split.
  - trivial.
  - intros H. rewrite get_geoconnex_pid_from_river_name_run; simpl.
    now rewrite H.
  - intros H. rewrite get_datasets_for_geoconnex_pid_run; simpl.
    now rewrite H.
Qed.

Lemma X1_witness_service_unavailable :
  snd (get_geoconnex_pid_from_river_name "Snake"
         (always 503 "busy" (Some snake_result)))
  = Raise (HTTPError 503).
Proof.
  exact (proj1 (proj2
           (X1_query_failure_propagates
              (always 503 "busy" (Some snake_result)) "" "Snake" ""
              (HTTPError 503))) eq_refl).
Defined.




(** X4.  Both templates keep their arguments apart: two different river
    names give two different query texts, and so do two different
    pids. *)
Theorem X4_templates_injective (a b : string) (Hab : a <> b) :
  river_name_query a <> river_name_query b /\
  datasets_query a <> datasets_query b.
Proof.
  split; intros H; apply Hab.
  - rewrite !river_name_query_split in H.
    apply append_cancel_l in H. now apply append_cancel_r in H.
  - rewrite !datasets_query_split in H.
    apply append_cancel_l in H. now apply append_cancel_r in H.
Qed.

Lemma X4_witness_snake_colorado :
  river_name_query "Snake" <> river_name_query "Colorado" /\
  datasets_query "Snake" <> datasets_query "Colorado".
Proof.
  apply (X4_templates_injective "Snake" "Colorado"). discriminate.
Defined.

(** ** What the tools can raise, and on which results *)

(** X5.  Neither tool ever raises KeyError for ["results"]: the assertion
    before the lookup rules it out.  The only keys whose absence the PID
    tool reports are [bindings], [mainstem] and [value]; the dataset tool
    reports [bindings] only. *)
Theorem X5_key_errors (net : Network) (river_name pid key : string) :
  (snd (get_geoconnex_pid_from_river_name river_name net)
     = Raise (KeyError key) ->
   key = "bindings" \/ key = "mainstem" \/ key = "value") /\
  (snd (get_datasets_for_geoconnex_pid pid net) = Raise (KeyError key) ->
   key = "bindings").
Proof.
  assert (Hget : forall c k k',
            getitem c k = Raise (KeyError k') -> k' = k).
  { intros c k k'. destruct c; simpl; try discriminate.
    destruct (lookup k d); [discriminate|]. now intros [= ->]. }
  assert (Hres : forall result k' (k : value -> outcome value),
            (has_results <~ contains "results" result ;;
             _ <~ assert has_results ;;
             results <~ getitem result "results" ;; k results)
            = Raise (KeyError k') ->
            exists results, k results = Raise (KeyError k')).
  { intros result k' k.
    destruct result as [| | | |s0|l|d]; simpl; try discriminate.
    - destruct (str_contains "results" s0); discriminate.
    - destruct (existsb (eq_str "results") l); discriminate.
    - destruct (lookup "results" d) as [results|]; simpl;
        [|discriminate].
      intros H. now exists results. }
  split.
  - rewrite get_geoconnex_pid_from_river_name_run; simpl.
    destruct (query_geoconnex_cases (river_name_query river_name) net)
      as [H | [(st & _ & H) | [(body & H) | (result & H)]]];
      rewrite H; simpl; try discriminate.
    unfold pid_of_result.
    destruct (truthy result); [simpl | discriminate].
    intros Hk. apply Hres in Hk as (results & Hk).
    destruct (getitem results "bindings") as [bindings|e] eqn:Eb; simpl in Hk.
    + destruct (iterate bindings) as [[|res rest]|e] eqn:Ei; simpl in Hk;
        [discriminate | | injection Hk as ->; destruct bindings; discriminate].
      destruct (getitem res "mainstem") as [mainstem|e] eqn:Em; simpl in Hk.
      * apply Hget in Hk. auto.
      * injection Hk as ->. apply Hget in Em. auto.
    + injection Hk as ->. apply Hget in Eb. auto.
  - rewrite get_datasets_for_geoconnex_pid_run; simpl.
    destruct (query_geoconnex_cases (datasets_query pid) net)
      as [H | [(st & _ & H) | [(body & H) | (result & H)]]];
      rewrite H; simpl; try discriminate.
    unfold datasets_of_result.
    destruct (truthy result); [simpl | discriminate].
    intros Hk. apply Hres in Hk as (results & Hk).
    now apply Hget in Hk.
Qed.

Lemma X5_witness_no_mainstem :
  "mainstem" = "bindings" \/ "mainstem" = "mainstem" \/ "mainstem" = "value".
Proof.
  exact (proj1 (X5_key_errors (always 200 "..." (Some no_mainstem_result))
                  "Snake" "" "mainstem") eq_refl).
Defined.

(** X6.  The dataset tool on a result that passed both assertions: a
    result that is not an object, or whose ["results"] is not an object,
    gives TypeError; a ["results"] object without ["bindings"] gives
    KeyError; otherwise the tool returns whatever is stored under
    ["bindings"], list or not, without looking at it. *)
Theorem X6_datasets_lookup_outcomes
    (net : Network) (pid : string) (result : value)
    (Hserved : served net (datasets_query pid) result)
    (Htruthy : truthy result = true)
    (Hcontains : contains "results" result = Ok true) :
  let out := snd (get_datasets_for_geoconnex_pid pid net) in
  ((forall d, result <> PyDict d) -> out = Raise TypeError) /\
  (forall results,
     getitem result "results" = Ok results ->
     (forall d, results <> PyDict d) -> out = Raise TypeError) /\
  (forall d,
     getitem result "results" = Ok (PyDict d) ->
     lookup "bindings" d = None -> out = Raise (KeyError "bindings")) /\
  (forall results bindings,
     getitem result "results" = Ok results ->
     getitem results "bindings" = Ok bindings -> out = Ok bindings).
Proof.
  intros out; subst out.
  rewrite (datasets_served _ _ _ Hserved),
    (datasets_of_result_past_asserts _ Htruthy Hcontains).
  repeat split.
  - intros H. now rewrite (getitem_not_dict _ _ H).
  - intros results Hr H. rewrite Hr; simpl. now apply getitem_not_dict.
  - intros d Hr Hb. rewrite Hr; simpl. now rewrite Hb.
  - intros results bindings Hr Hb. now rewrite Hr.
Qed.

Lemma X6_witness_bindings_not_a_list :
  snd (get_datasets_for_geoconnex_pid "urn:x"
         (always 200 "..."
            (Some (PyDict [("results", PyDict [("bindings", PyInt 7)])]))))
  = Ok (PyInt 7).
Proof.
  exact (proj2 (proj2 (proj2
           (X6_datasets_lookup_outcomes
              (always 200 "..."
                 (Some (PyDict [("results", PyDict [("bindings", PyInt 7)])])))
              "urn:x"
              (PyDict [("results", PyDict [("bindings", PyInt 7)])])
              (served_always _ _ _) eq_refl eq_refl)))
           (PyDict [("bindings", PyInt 7)]) (PyInt 7) eq_refl eq_refl).
Defined.

(** X7.  The PID tool on a result that passed both assertions raises
    TypeError whenever a level of the expected shape has the wrong type:
    the result or its ["results"] is not an object; ["bindings"] is
    neither a list nor empty (a number, a boolean, null, a non-empty
    object or str, whose elements are strs); the first binding is not an
    object; its ["mainstem"] is not an object. *)
Theorem X7_pid_type_errors
    (net : Network) (river_name : string) (result : value)
    (Hserved : served net (river_name_query river_name) result)
    (Htruthy : truthy result = true)
    (Hcontains : contains "results" result = Ok true) :
  let out := snd (get_geoconnex_pid_from_river_name river_name net) in
  ((forall d, result <> PyDict d) -> out = Raise TypeError) /\
  (forall results,
     getitem result "results" = Ok results ->
     (forall d, results <> PyDict d) -> out = Raise TypeError) /\
  (forall results bindings,
     getitem result "results" = Ok results ->
     getitem results "bindings" = Ok bindings ->
     (forall l, bindings <> PyList l) ->
     bindings <> PyDict [] -> bindings <> PyStr "" ->
     out = Raise TypeError) /\
  (forall results res rest,
     getitem result "results" = Ok results ->
     getitem results "bindings" = Ok (PyList (res :: rest)) ->
     (forall d, res <> PyDict d) -> out = Raise TypeError) /\
  (forall results res rest mainstem,
     getitem result "results" = Ok results ->
     getitem results "bindings" = Ok (PyList (res :: rest)) ->
     getitem res "mainstem" = Ok mainstem ->
     (forall d, mainstem <> PyDict d) -> out = Raise TypeError).
Proof.
  intros out; subst out.
  rewrite (pid_served _ _ _ Hserved),
    (pid_of_result_past_asserts _ Htruthy Hcontains).
  repeat split.
  - intros H. now rewrite (getitem_not_dict _ _ H).
  - intros results Hr H. rewrite Hr; simpl. now rewrite getitem_not_dict.
  - intros results bindings Hr Hb Hl Hd Hs. rewrite Hr; simpl.
    rewrite Hb; simpl.
    destruct bindings as [| | | |s|l|d]; try reflexivity.
    + destruct s; [now elim Hs | reflexivity].
    + now elim (Hl l).
    + destruct d; [now elim Hd | reflexivity].
  - intros results res rest Hr Hb H. rewrite Hr; simpl. rewrite Hb; simpl.
    now rewrite getitem_not_dict.
  - intros results res rest mainstem Hr Hb Hm H. rewrite Hr; simpl.
    rewrite Hb; simpl. rewrite Hm; simpl. now apply getitem_not_dict.
Qed.

Lemma X7_witness_bindings_object :
  snd (get_geoconnex_pid_from_river_name "Snake"
         (always 200 "..."
            (Some (PyDict [("results",
               PyDict [("bindings", PyDict [("mainstem", PyNone)])])]))))
  = Raise TypeError.
Proof.
  refine (proj1 (proj2 (proj2
           (X7_pid_type_errors
              (always 200 "..."
                 (Some (PyDict [("results",
                    PyDict [("bindings", PyDict [("mainstem", PyNone)])])])))
              "Snake"
              (PyDict [("results",
                 PyDict [("bindings", PyDict [("mainstem", PyNone)])])])
              (served_always _ _ _) eq_refl eq_refl)))
           (PyDict [("bindings", PyDict [("mainstem", PyNone)])])
           (PyDict [("mainstem", PyNone)]) eq_refl eq_refl _ _ _);
    discriminate.
Defined.

(** X8.  The PID tool never looks past the first binding: two answers
    whose bindings lists start with the same element give the same
    outcome, value or exception, whatever the rest of the lists and
    whatever the river names asked for. *)
Theorem X8_only_first_binding
    (net net' : Network) (river_name river_name' : string)
    (result result' results results' first : value)
    (rest rest' : list value)
    (Hserved : served net (river_name_query river_name) result)
    (Hserved' : served net' (river_name_query river_name') result')
    (Hresults : getitem result "results" = Ok results)
    (Hresults' : getitem result' "results" = Ok results')
    (Hbindings : getitem results "bindings" = Ok (PyList (first :: rest)))
    (Hbindings' : getitem results' "bindings" = Ok (PyList (first :: rest'))) :
  snd (get_geoconnex_pid_from_river_name river_name net) =
  snd (get_geoconnex_pid_from_river_name river_name' net').
Proof.
  rewrite (pid_served _ _ _ Hserved), (pid_served _ _ _ Hserved').
  destruct (getitem_Ok_asserts _ _ _ Hresults) as [Ht Hc].
  destruct (getitem_Ok_asserts _ _ _ Hresults') as [Ht' Hc'].
  rewrite (pid_of_result_past_asserts _ Ht Hc),
    (pid_of_result_past_asserts _ Ht' Hc').
  rewrite Hresults, Hresults'; simpl. now rewrite Hbindings, Hbindings'.
Qed.

Lemma X8_witness_one_or_three_rows :
  snd (get_geoconnex_pid_from_river_name "Snake"
         (always 200 "..." (Some snake_result))) =
  snd (get_geoconnex_pid_from_river_name "Snake River"
         (always 200 "..."
            (Some (PyDict [("results", PyDict [("bindings", PyList
               [ PyDict [("mainstem", PyDict [("value",
                   PyStr "https://geoconnex.us/ref/mainstems/123")])] ])])])))).
Proof.
  eapply X8_only_first_binding;
    [apply served_always | apply served_always | reflexivity ..].
Defined.


